(** * WSDissector: the AWW wrapper around the ws_dissector child process

    A shallow embedding of
    [src/automator/trace_collector/dm_collector/dm_log_packet/ws_dissector.py]
    (Python 2): the catalog [SUPPORTED_TYPES], the class attributes [_proc]
    and [_init_proc_called], and the class methods [init_proc] and
    [decode_msg], together with the parts of [struct], [os] and [subprocess]
    they call. *)

From Stdlib Require Import ZArith Lia List String Ascii.
From Stdlib.Strings Require Import Byte.
From stdpp Require Import base option gmap strings list fin_maps.
Import ListNotations.

Local Open Scope Z_scope.
Local Open Scope string_scope.
Local Open Scope list_scope.

(** ** Python values used by the module *)

(** Binary data ([str] used as a byte string) is a list of bytes; text read
    from the child is a [string]. *)
Abbreviation bytes := (list Byte.byte).

(** The exceptions the two methods can raise. *)
Inductive exn : Set :=
  | AssertionError   (* [assert] on a false condition *)
  | StructError      (* [struct.error]: argument out of range for the format *)
  | OSError          (* [subprocess.Popen] could not start the executable *)
  | AttributeError.  (* attribute access on [None] *)

(** What a call does: it returns a value, it raises, or it is still running
    when the fuel given to its loop is used up. *)
Inductive outcome (A : Type) : Type :=
  | Return (a : A)
  | Raise (e : exn)
  | OutOfFuel.
Arguments Return {A} a.
Arguments Raise {A} e.
Arguments OutOfFuel {A}.

(** ** [struct.pack("!II", ...)] *)

Definition byte_of_Z (z : Z) : Byte.byte :=
  match Byte.of_N (Z.to_N (Z.land z 255)) with
  | Some b => b
  | None => Byte.x00
  end.

Definition Z_of_byte (b : Byte.byte) : Z := Z.of_N (Byte.to_N b).

(** The four bytes of an unsigned 32-bit integer, most significant first
    (format [!I]: network order, standard size, no alignment). *)
Definition be32 (v : Z) : bytes :=
  [ byte_of_Z (Z.shiftr v 24); byte_of_Z (Z.shiftr v 16);
    byte_of_Z (Z.shiftr v 8); byte_of_Z v ].

(** [struct.pack("!I", v)]: [struct.error] unless [0 <= v <= 4294967295]. *)
Definition pack_I (v : Z) : outcome bytes :=
  if decide (0 <= v < 2 ^ 32) then Return (be32 v) else Raise StructError.

(** [struct.pack("!II", v1, v2)]: the two fields one after the other. *)
Definition struct_pack_II (v1 v2 : Z) : outcome bytes :=
  match pack_I v1 with
  | Return h1 =>
      match pack_I v2 with
      | Return h2 => Return (h1 ++ h2)
      | Raise e => Raise e
      | OutOfFuel => OutOfFuel
      end
  | Raise e => Raise e
  | OutOfFuel => OutOfFuel
  end.

(** [len(b)] *)
Definition len (b : bytes) : Z := Z.of_nat (length b).

(** Modelled from the spec: the reader of an AWW header ("reading back two
    big-endian 32-bit integers"); the Python module only writes headers, the
    reader lives in the ws_dissector program.  It is [struct.unpack("!II", h)]:
    each field is folded from its four bytes, most significant first. *)
Definition unpack_I (h : bytes) : Z :=
  fold_left (fun acc b => Z.lor (Z.shiftl acc 8) (Z_of_byte b)) h 0.

(** Modelled from the spec: the two fields of an 8-byte AWW header, read
    back as the ws_dissector program does on its side of the pipe. *)
Definition struct_unpack_II (h : bytes) : option (Z * Z) :=
  match h with
  | [a0; a1; a2; a3; b0; b1; b2; b3] =>
      Some (unpack_I [a0; a1; a2; a3], unpack_I [b0; b1; b2; b3])
  | _ => None
  end.

(** ** The catalog *)

(** Maps all supported message types to their AWW protocol number. *)
Definition SUPPORTED_TYPES : gmap string Z :=
  list_to_map
    [ (* WCDMA RRC: 100~149 *)
      ("RRC_UL_CCCH", 100);
      ("RRC_UL_DCCH", 101);
      ("RRC_DL_CCCH", 102);
      ("RRC_DL_DCCH", 103);
      ("RRC_DL_BCCH_BCH", 104);
      (* WCDMA RRC SysInfo: 150~199 *)
      ("RRC_MIB", 150);
      ("RRC_SIB1", 151);
      ("RRC_SIB3", 153);
      ("RRC_SIB5", 155);
      ("RRC_SIB7", 157);
      ("RRC_SIB12", 162);
      ("RRC_SIB19", 169);
      (* LTE: 200~299 *)
      ("LTE-RRC_PCCH", 200);
      ("LTE-RRC_DL_DCCH", 201);
      ("LTE-RRC_UL_DCCH", 202);
      ("LTE-RRC_BCCH_DL_SCH", 203);
      ("LTE-NAS_EPS_PLAIN", 250) ].

(** ** The process-wide state

    [WSDissector] keeps its state in class attributes, so there is one copy
    per host process.  Next to them the model carries what the methods reach
    through [os] and [subprocess]: the host environment, the programs the
    operating system can start, and the children started so far. *)

(** A [subprocess.Popen] object with [stdin=PIPE] and [stdout=PIPE].  The
    decoder is a black box: [program] gives the lines it emits once it has
    received a given sequence of bytes in all. *)
Record Popen : Type := mkPopen {
  args : string;                    (* the executable *)
  env : gmap string string;         (* the environment it was started with *)
  stdin : bytes;                    (* every byte written to its stdin *)
  stdout : list string;             (* lines emitted and not read yet *)
  program : bytes -> list string;
}.

Record World : Type := mkWorld {
  _proc : option Popen;                           (* [cls._proc] *)
  _init_proc_called : bool;                       (* [cls._init_proc_called] *)
  os_environ : gmap string string;                (* [os.environ] *)
  executables : gmap string (bytes -> list string);
  children : list (string * gmap string string);  (* every child ever started *)
}.

(** The class as the module defines it: [_proc = None],
    [_init_proc_called = False], and no child started. *)
Definition initial_world (environ : gmap string string)
    (exes : gmap string (bytes -> list string)) : World :=
  mkWorld None false environ exes [].

Definition set_proc (p : option Popen) (w : World) : World :=
  mkWorld p (_init_proc_called w) (os_environ w) (executables w) (children w).

Definition set_init_proc_called (f : bool) (w : World) : World :=
  mkWorld (_proc w) f (os_environ w) (executables w) (children w).

Definition add_child (c : string * gmap string string) (w : World) : World :=
  mkWorld (_proc w) (_init_proc_called w) (os_environ w) (executables w)
          (children w ++ [c]).

(** ** A state and exception monad for the methods *)

Definition M (A : Type) : Type := World -> outcome A * World.

Definition ret {A} (a : A) : M A := fun w => (Return a, w).

Definition raise {A} (e : exn) : M A := fun w => (Raise e, w).

Definition bind {A B} (m : M A) (k : A -> M B) : M B :=
  fun w =>
    match m w with
    | (Return a, w') => k a w'
    | (Raise e, w') => (Raise e, w')
    | (OutOfFuel, w') => (OutOfFuel, w')
    end.

Declare Scope py_scope.
Delimit Scope py_scope with py.
Notation "'let!' x := m 'in' k" := (bind m (fun x => k))
  (at level 10, x name, m at level 100, k at level 200) : py_scope.
Notation "'do!' m 'in' k" := (bind m (fun _ => k))
  (at level 10, m at level 100, k at level 200) : py_scope.
Local Open Scope py_scope.

Definition get {A} (f : World -> A) : M A := fun w => (Return (f w), w).

Definition modify (f : World -> World) : M unit := fun w => (Return tt, f w).

(** [assert c] *)
Definition assert_ (c : bool) : M unit :=
  if c then ret tt else raise AssertionError.

(** Lifting a pure computation that may raise. *)
Definition lift {A} (o : outcome A) : M A := fun w => (o, w).

(** ** [subprocess] *)

(** [subprocess.Popen([executable_path], bufsize=-1, stdin=PIPE, stdout=PIPE,
    env=env)]: [OSError] when the executable cannot be started; otherwise a
    new child, which may already have emitted the lines [prog []]. *)
Definition subprocess_Popen (executable_path : string)
    (env : gmap string string) : M Popen :=
  fun w =>
    match executables w !! executable_path with
    | None => (Raise OSError, w)
    | Some prog =>
        (Return (mkPopen executable_path env [] (prog []) prog),
         add_child (executable_path, env) w)
    end.

(** The child after [data] has been written to its stdin and flushed. *)
Definition feed (data : bytes) (p : Popen) : Popen :=
  mkPopen (args p) (env p) (stdin p ++ data)
          (stdout p ++ program p (stdin p ++ data)) (program p).

(** [cls._proc.stdin.write(data)]; [cls._proc.stdin.flush()];
    [cls._proc.stdout.flush()] *)
Definition proc_stdin_write (data : bytes) : M unit :=
  fun w =>
    match _proc w with
    | None => (Raise AttributeError, w)
    | Some p => (Return tt, set_proc (Some (feed data p)) w)
    end.

(** The child with [out] as the output it has emitted and not been read. *)
Definition set_stdout (out : list string) (p : Popen) : Popen :=
  mkPopen (args p) (env p) (stdin p) out (program p).

(** [cls._proc.stdout.readline()]: the next line, newline included; the
    empty string when the child has nothing more to say, as at end of file
    (a read that blocks for ever keeps the caller from returning just the
    same). *)
Definition proc_stdout_readline : M string :=
  fun w =>
    match _proc w with
    | None => (Raise AttributeError, w)
    | Some p =>
        match stdout p with
        | [] => (Return "", w)
        | line :: rest =>
            (Return line, set_proc (Some (set_stdout rest p)) w)
        end
    end.

(** ** [str] methods *)

(** [s.startswith(p)] *)
Definition startswith (s p : string) : bool := String.prefix p s.

(** [sep.join(l)] *)
Definition join (sep : string) (l : list string) : string :=
  String.concat sep l.

(** ** The methods of [WSDissector] *)

(** [init_proc(cls, executable_path, ws_library_path)] *)
Definition init_proc (executable_path ws_library_path : string) : M unit :=
  let! called := get _init_proc_called in
  if called : bool then ret tt
  else
    let! env := get os_environ in
    let env :=
      <["LD_LIBRARY_PATH" :=
          ws_library_path +:+ ":" +:+ default "" (env !! "LD_LIBRARY_PATH")]> env
    in
    let! p := subprocess_Popen executable_path env in
    do! modify (set_proc (Some p)) in
    modify (set_init_proc_called true).

(** The [while True] loop of [decode_msg]; [fuel] bounds its iterations. *)
Fixpoint read_loop (fuel : nat) (result : list string) : M (list string) :=
  match fuel with
  | O => lift OutOfFuel
  | S fuel' =>
      let! line := proc_stdout_readline in
      if startswith line "===___===" then ret result
      else read_loop fuel' (result ++ [line])
  end.

(** [decode_msg(cls, msg_type, b)]; [None] is Python's [None]. *)
Definition decode_msg (fuel : nat) (msg_type : string) (b : bytes)
    : M (option string) :=
  let! called := get _init_proc_called in
  do! assert_ called in
  match SUPPORTED_TYPES !! msg_type with
  | None => ret None
  | Some code =>
      let! input_data := lift (struct_pack_II code (len b)) in
      let input_data := input_data ++ b in
      do! proc_stdin_write input_data in
      let! result := read_loop fuel [] in
      ret (Some (join "" result))
  end.

(** A caller's script: a sequence of calls on the class. *)
Inductive call : Type :=
  | InitProc (executable_path ws_library_path : string)
  | DecodeMsg (fuel : nat) (msg_type : string) (b : bytes).

Definition do_call (c : call) (w : World) : World :=
  match c with
  | InitProc e l => snd (init_proc e l w)
  | DecodeMsg fuel t b => snd (decode_msg fuel t b w)
  end.

Definition run (cs : list call) (w : World) : World :=
  fold_left (fun w c => do_call c w) cs w.

(** ** Notions the specification is stated with *)

(** The process handle: which executable the child runs and the environment
    it was started with (its pipes carry the traffic and change with it). *)
Definition handle (w : World) : option (string * gmap string string) :=
  (fun p => (args p, env p)) <$> _proc w.

(** What initialization decides: the flag, the handle, the host environment
    and the children started so far. *)
Definition supervision (w : World)
    : bool * option (string * gmap string string) * gmap string string
      * list (string * gmap string string) :=
  (_init_proc_called w, handle w, os_environ w, children w).

(** The separator of search paths on POSIX systems ([os.pathsep]), the ones
    that have [LD_LIBRARY_PATH]. *)
Definition posix_pathsep : string := ":".

(** The line feed that ends every line [readline] returns. *)
Definition LF : string := String (ascii_of_nat 10) EmptyString.

(** The specification's terminator: a line "equal to the exact token",
    whether or not [readline] left the line feed on it. *)
Definition exact_sentinel (line : string) : bool :=
  bool_decide (line = "===___===" +:+ LF) || bool_decide (line = "===___===").

(** The specification's header field: the four base-256 digits of [v], most
    significant first. *)
Definition big_endian_32 (v : Z) : list Z :=
  [ v / 2 ^ 24 mod 256; v / 2 ^ 16 mod 256; v / 2 ^ 8 mod 256; v mod 256 ].

(** While the flag is unset no child exists; once it is set there is one. *)
Definition one_child (w : World) : Prop :=
  if _init_proc_called w then length (children w) = 1%nat
  else children w = [].

(** ** Fixtures *)

(** A fake decoder: silent until it is sent something, then it answers every
    request with the same [lines] followed by the terminator. *)
Definition fake_decoder (lines : list string) : bytes -> list string :=
  fun received =>
    match received with
    | [] => []
    | _ :: _ => lines ++ ["===___===" +:+ LF]
    end.

Definition sample_environ : gmap string string :=
  <["LD_LIBRARY_PATH" := "/usr/lib"]> (<["HOME" := "/root"]> ∅).

Definition sample_executables : gmap string (bytes -> list string) :=
  <["/opt/ws_dissector" := fake_decoder ["rrc" +:+ LF; "sib7" +:+ LF]]>
    (<["/opt/mute" := fake_decoder []]> ∅).

(** The class before any call, and after [init_proc] on the fake decoder. *)
Definition fresh_world : World := initial_world sample_environ sample_executables.

Definition ready_world : World :=
  snd (init_proc "/opt/ws_dissector" "/opt/wireshark/lib" fresh_world).

(** The class after [init_proc] on a decoder that answers the bare
    terminator. *)
Definition mute_world : World :=
  snd (init_proc "/opt/mute" "/opt/wireshark/lib" fresh_world).

(** The payload of the module's own [RRC_SIB7] test, [018000]. *)
Definition sib7_payload : bytes := [x01; x80; x00].

(** ** The self-test of the module ([if __name__ == "__main__"])  *)









(** ** Notions the further properties are stated with *)

(** The worlds a host program can be in: the class as defined, after any
    calls of the two methods. *)
Definition reachable (w : World) : Prop :=
  exists environ exes cs, w = run cs (initial_world environ exes).

(** The flag, the process object and the list of children agree. *)
Definition consistent (w : World) : Prop :=
  if _init_proc_called w then
    exists p,
      _proc w = Some p /\
      children w = [(args p, env p)] /\
      executables w !! args p = Some (program p)
  else _proc w = None /\ children w = [].

(** The bytes a call sends to the child: the request of a [decode_msg] on a
    supported type with a payload that fits the length field, nothing
    otherwise. *)
Definition written_by (c : call) : bytes :=
  match c with
  | InitProc _ _ => []
  | DecodeMsg _ msg_type b =>
      match SUPPORTED_TYPES !! msg_type with
      | Some code =>
          match struct_pack_II code (len b) with
          | Return h => h ++ b
          | _ => []
          end
      | None => []
      end
  end.







(** A decoder that talks but never emits the terminator. *)
Definition endless_decoder : bytes -> list string :=
  fun _ => ["..." +:+ LF].

Definition endless_world : World :=
  mkWorld (Some (mkPopen "/opt/endless" ∅ [] [] endless_decoder)) true
          sample_environ sample_executables [("/opt/endless", ∅)].

(** * Properties *)

(** ** The header codec *)

Section Codec.

Lemma Z_of_byte_of_Z z : Z_of_byte (byte_of_Z z) = Z.land z 255.
Proof.
  unfold Z_of_byte, byte_of_Z.
  assert (Hr : 0 <= Z.land z 255 < 256).
  { change 255 with (Z.ones 8). rewrite Z.land_ones by lia.
    apply Z.mod_pos_bound. lia. }
  destruct (Byte.of_N (Z.to_N (Z.land z 255))) as [b|] eqn:E.
  - apply Byte.to_of_N in E. rewrite E. lia.
  - apply Byte.of_N_None_iff in E. lia.
Qed.

Lemma Z_of_byte_range b : 0 <= Z_of_byte b < 256.
Proof. unfold Z_of_byte. pose proof (Byte.to_N_bounded b). lia. Qed.

(** Appending a byte below a shifted value is an addition: no bit is
    shared. *)
Lemma lor_shiftl_8 x y :
  0 <= y < 256 -> Z.lor (Z.shiftl x 8) y = x * 256 + y.
Proof.
  intros Hy.
  assert (Hd : Z.land (Z.shiftl x 8) y = 0).
  { apply Z.bits_inj'. intros n Hn.
    rewrite Z.land_spec, Z.bits_0.
    destruct (Z.lt_ge_cases n 8) as [Hlt|Hge].
    - rewrite Z.shiftl_spec_low by lia. reflexivity.
    - rewrite <- (Z.mod_small y (2 ^ 8)) by lia.
      rewrite Z.mod_pow2_bits_high by lia. apply andb_false_r. }
  rewrite <- Z.lxor_lor by exact Hd.
  rewrite <- Z.add_nocarry_lxor by exact Hd.
  rewrite Z.shiftl_mul_pow2 by lia. reflexivity.
Qed.

(** The bytes of [be32] are the base-256 digits of its argument. *)
Lemma be32_digits v : map Z_of_byte (be32 v) = big_endian_32 v.
Proof.
  unfold be32, big_endian_32. cbn [map].
  rewrite !Z_of_byte_of_Z.
  change 255 with (Z.ones 8). rewrite !Z.land_ones by lia.
  rewrite !Z.shiftr_div_pow2 by lia. reflexivity.
Qed.

Lemma be32_length v : length (be32 v) = 4%nat.
Proof. reflexivity. Qed.

Lemma unpack_I_be32 v : 0 <= v < 2 ^ 32 -> unpack_I (be32 v) = v.
Proof.
  intros Hv. unfold unpack_I, be32. cbn [fold_left].
  rewrite !Z_of_byte_of_Z.
  change 255 with (Z.ones 8). rewrite !Z.land_ones by lia.
  rewrite !Z.shiftr_div_pow2 by lia.
  rewrite !lor_shiftl_8 by (apply Z.mod_pos_bound; lia).
  change (2 ^ 8) with 256. change (2 ^ 24) with 16777216.
  change (2 ^ 16) with 65536. change (2 ^ 32) with 4294967296 in Hv.
  Z.div_mod_to_equations. lia.
Qed.

Lemma pack_I_in_range v : 0 <= v < 2 ^ 32 -> pack_I v = Return (be32 v).
Proof. intros Hv. unfold pack_I. rewrite decide_True by exact Hv. reflexivity. Qed.

Lemma pack_I_out_of_range v :
  ~ (0 <= v < 2 ^ 32) -> pack_I v = Raise StructError.
Proof. intros Hv. unfold pack_I. rewrite decide_False by exact Hv. reflexivity. Qed.

Lemma struct_pack_II_in_range v1 v2 :
  0 <= v1 < 2 ^ 32 -> 0 <= v2 < 2 ^ 32 ->
  struct_pack_II v1 v2 = Return (be32 v1 ++ be32 v2).
Proof.
  intros H1 H2. unfold struct_pack_II.
  rewrite !pack_I_in_range by assumption. reflexivity.
Qed.

Lemma struct_pack_II_too_long v1 v2 :
  0 <= v1 < 2 ^ 32 -> 2 ^ 32 <= v2 ->
  struct_pack_II v1 v2 = Raise StructError.
Proof.
  intros H1 H2. unfold struct_pack_II.
  rewrite pack_I_in_range by assumption.
  rewrite pack_I_out_of_range by lia. reflexivity.
Qed.

Lemma len_nonneg b : 0 <= len b.
Proof. unfold len. lia. Qed.

End Codec.

(** C5: for a ProtocolCode and a payload length in [0, 2^32), packing gives
    an 8-byte header, and reading the header back as two big-endian 32-bit
    integers gives the code and the length that were packed. *)
Theorem header_roundtrip (code n : Z) :
  0 <= code < 2 ^ 32 -> 0 <= n < 2 ^ 32 ->
  exists h,
    struct_pack_II code n = Return h /\
    length h = 8%nat /\
    struct_unpack_II h = Some (code, n).
Proof.
  intros Hc Hn. exists (be32 code ++ be32 n).
  split; [apply struct_pack_II_in_range; assumption|].
  split; [reflexivity|].
  change (struct_unpack_II (be32 code ++ be32 n))
    with (Some (unpack_I (be32 code), unpack_I (be32 n))).
  rewrite !unpack_I_be32 by assumption. reflexivity.
Qed.

Lemma header_roundtrip_witness :
  exists h,
    struct_pack_II 157 3 = Return h /\
    length h = 8%nat /\
    struct_unpack_II h = Some (157, 3).
Proof. apply (header_roundtrip 157 3); lia. Defined.

(** ** The catalog *)

Example lookup_sib7 : SUPPORTED_TYPES !! "RRC_SIB7" = Some 157.
Proof. reflexivity. Qed.

Example lookup_unknown : SUPPORTED_TYPES !! "UNKNOWN_TYPE" = None.
Proof. reflexivity. Qed.

Lemma catalog_cases name code :
  SUPPORTED_TYPES !! name = Some code ->
  (name, code) ∈
    [ ("RRC_UL_CCCH", 100); ("RRC_UL_DCCH", 101); ("RRC_DL_CCCH", 102);
      ("RRC_DL_DCCH", 103); ("RRC_DL_BCCH_BCH", 104); ("RRC_MIB", 150);
      ("RRC_SIB1", 151); ("RRC_SIB3", 153); ("RRC_SIB5", 155);
      ("RRC_SIB7", 157); ("RRC_SIB12", 162); ("RRC_SIB19", 169);
      ("LTE-RRC_PCCH", 200); ("LTE-RRC_DL_DCCH", 201);
      ("LTE-RRC_UL_DCCH", 202); ("LTE-RRC_BCCH_DL_SCH", 203);
      ("LTE-NAS_EPS_PLAIN", 250) ].
Proof. intros H. apply elem_of_list_to_map_2 in H. exact H. Qed.

(** Every code of the catalog fits the 32-bit field of the header. *)
Lemma catalog_range name code :
  SUPPORTED_TYPES !! name = Some code -> 100 <= code <= 250.
Proof.
  intros H. apply catalog_cases in H.
  repeat (apply elem_of_cons in H as [H|H]; [inversion H; lia|]).
  inversion H.
Qed.

Ltac pick_entry :=
  repeat first [ left; split; reflexivity | right ]; split; reflexivity.

(** C6: the registry lookup gives exactly the documented code for each of
    the seventeen documented names, and no other name is in the catalog. *)
Theorem catalog_is_documented (name : string) (code : Z) :
  SUPPORTED_TYPES !! name = Some code <->
  (name = "RRC_UL_CCCH" /\ code = 100) \/
  (name = "RRC_UL_DCCH" /\ code = 101) \/
  (name = "RRC_DL_CCCH" /\ code = 102) \/
  (name = "RRC_DL_DCCH" /\ code = 103) \/
  (name = "RRC_DL_BCCH_BCH" /\ code = 104) \/
  (name = "RRC_MIB" /\ code = 150) \/
  (name = "RRC_SIB1" /\ code = 151) \/
  (name = "RRC_SIB3" /\ code = 153) \/
  (name = "RRC_SIB5" /\ code = 155) \/
  (name = "RRC_SIB7" /\ code = 157) \/
  (name = "RRC_SIB12" /\ code = 162) \/
  (name = "RRC_SIB19" /\ code = 169) \/
  (name = "LTE-RRC_PCCH" /\ code = 200) \/
  (name = "LTE-RRC_DL_DCCH" /\ code = 201) \/
  (name = "LTE-RRC_UL_DCCH" /\ code = 202) \/
  (name = "LTE-RRC_BCCH_DL_SCH" /\ code = 203) \/
  (name = "LTE-NAS_EPS_PLAIN" /\ code = 250).
Proof.
  split.
  - intros H. apply catalog_cases in H.
    repeat (apply elem_of_cons in H as [H|H];
            [inversion H; subst; clear H; pick_entry|]).
    inversion H.
  - intros H.
    repeat (destruct H as [[-> ->]|H]; [reflexivity|]).
    destruct H as [-> ->]. reflexivity.
Qed.

(** ** The two methods, unfolded *)

Section Methods.

Implicit Types (w : World) (p : Popen) (b : bytes) (fuel : nat).

(** [init_proc] with the monad unfolded. *)
Lemma init_proc_eq e l w :
  init_proc e l w =
  if _init_proc_called w then (Return tt, w)
  else
    let env' :=
      <["LD_LIBRARY_PATH" :=
          l +:+ ":" +:+ default "" (os_environ w !! "LD_LIBRARY_PATH")]>
        (os_environ w) in
    match executables w !! e with
    | None => (Raise OSError, w)
    | Some prog =>
        (Return tt,
         set_init_proc_called true
           (set_proc (Some (mkPopen e env' [] (prog []) prog))
              (add_child (e, env') w)))
    end.
Proof.
  unfold init_proc, bind, get, subprocess_Popen, modify, ret.
  destruct (_init_proc_called w); [reflexivity|].
  cbv zeta. cbn [os_environ executables add_child].
  destruct (executables w !! e); reflexivity.
Qed.

(** [decode_msg] with the monad unfolded. *)
Lemma decode_msg_eq fuel t b w :
  decode_msg fuel t b w =
  if _init_proc_called w then
    match SUPPORTED_TYPES !! t with
    | None => (Return None, w)
    | Some code =>
        match struct_pack_II code (len b) with
        | Return h =>
            match _proc w with
            | None => (Raise AttributeError, w)
            | Some p =>
                match read_loop fuel [] (set_proc (Some (feed (h ++ b) p)) w) with
                | (Return r, w') => (Return (Some (join "" r)), w')
                | (Raise e, w') => (Raise e, w')
                | (OutOfFuel, w') => (OutOfFuel, w')
                end
            end
        | Raise e => (Raise e, w)
        | OutOfFuel => (OutOfFuel, w)
        end
    end
  else (Raise AssertionError, w).
Proof.
  unfold decode_msg, bind, get, assert_, ret, raise, lift, proc_stdin_write.
  destruct (_init_proc_called w); [|reflexivity].
  destruct (SUPPORTED_TYPES !! t) as [code|]; [|reflexivity].
  destruct (struct_pack_II code (len b)) as [h|e|]; try reflexivity.
  destruct (_proc w) as [p|]; [|reflexivity].
  destruct (read_loop fuel [] _) as [[r|e|] w']; reflexivity.
Qed.

(** One turn of the loop on a terminator line: the loop ends, the line is
    consumed and not kept. *)
Lemma read_loop_stop fuel acc w p s rest :
  _proc w = Some p -> stdout p = s :: rest ->
  startswith s "===___===" = true ->
  read_loop (S fuel) acc w =
  (Return acc, set_proc (Some (set_stdout rest p)) w).
Proof.
  intros Hp Hout Hs. cbn [read_loop].
  unfold bind, proc_stdout_readline, ret. rewrite Hp, Hout, Hs.
  reflexivity.
Qed.

(** One turn of the loop on any other line: the line is appended. *)
Lemma read_loop_keep fuel acc w p l rest :
  _proc w = Some p -> stdout p = l :: rest ->
  startswith l "===___===" = false ->
  read_loop (S fuel) acc w =
  read_loop fuel (acc ++ [l]) (set_proc (Some (set_stdout rest p)) w).
Proof.
  intros Hp Hout Hl. cbn [read_loop].
  unfold bind, proc_stdout_readline. rewrite Hp, Hout, Hl.
  reflexivity.
Qed.

(** At end of output [readline] gives the empty string, which is not a
    terminator: the loop goes on, appending it. *)
Lemma read_loop_eof fuel acc w p :
  _proc w = Some p -> stdout p = [] ->
  read_loop (S fuel) acc w = read_loop fuel (acc ++ [""]) w.
Proof.
  intros Hp Hout. cbn [read_loop].
  unfold bind, proc_stdout_readline. rewrite Hp, Hout. reflexivity.
Qed.

(** The loop returns the lines before the first terminator, in order, and
    leaves in the pipe what follows the terminator. *)
Lemma read_loop_lines lines :
  forall fuel acc w p s rest,
    _proc w = Some p ->
    stdout p = lines ++ s :: rest ->
    Forall (fun l => startswith l "===___===" = false) lines ->
    startswith s "===___===" = true ->
    (length lines < fuel)%nat ->
    read_loop fuel acc w =
    (Return (acc ++ lines), set_proc (Some (set_stdout rest p)) w).
Proof.
  induction lines as [|l lines IH]; intros fuel acc w p s rest Hp Hout Hall Hs Hfuel.
  - destruct fuel as [|fuel]; [cbn in Hfuel; lia|].
    rewrite app_nil_r. eapply read_loop_stop; eassumption.
  - destruct fuel as [|fuel]; [cbn in Hfuel; lia|].
    apply Forall_cons in Hall as [Hl Hall].
    rewrite (read_loop_keep fuel acc w p l (lines ++ s :: rest) Hp Hout Hl).
    rewrite (IH fuel (acc ++ [l]) _ (set_stdout (lines ++ s :: rest) p) s rest);
      try assumption; try reflexivity.
    + rewrite <- app_assoc. reflexivity.
    + cbn in Hfuel. lia.
Qed.

(** With no terminator in the pipe the loop never returns, whatever the
    fuel: it runs through the lines and then spins at end of output. *)
Lemma read_loop_never_returns fuel :
  forall acc w p,
    _proc w = Some p ->
    Forall (fun l => startswith l "===___===" = false) (stdout p) ->
    fst (read_loop fuel acc w) = OutOfFuel.
Proof.
  induction fuel as [|fuel IH]; intros acc w p Hp Hall; [reflexivity|].
  destruct (stdout p) as [|l rest] eqn:Hout.
  - rewrite (read_loop_eof fuel acc w p Hp Hout).
    apply (IH _ w p Hp). rewrite Hout. constructor.
  - apply Forall_cons in Hall as [Hl Hall].
    rewrite (read_loop_keep fuel acc w p l rest Hp Hout Hl).
    apply (IH _ _ (set_stdout rest p)); [reflexivity|exact Hall].
Qed.

(** The loop only consumes pending output: everything else in the world,
    the bytes already written included, stays as it is. *)
Lemma read_loop_frame fuel :
  forall acc w p,
    _proc w = Some p ->
    exists out,
      snd (read_loop fuel acc w) = set_proc (Some (set_stdout out p)) w.
Proof.
  induction fuel as [|fuel IH]; intros acc w p Hp.
  - exists (stdout p). destruct w, p. cbn in Hp. subst. reflexivity.
  - destruct (stdout p) as [|l rest] eqn:Hout.
    + rewrite (read_loop_eof fuel acc w p Hp Hout). apply (IH _ w p Hp).
    + destruct (startswith l "===___===") eqn:Hl.
      * rewrite (read_loop_stop fuel acc w p l rest Hp Hout Hl).
        exists rest. reflexivity.
      * rewrite (read_loop_keep fuel acc w p l rest Hp Hout Hl).
        destruct (IH (acc ++ [l]) (set_proc (Some (set_stdout rest p)) w)
                     (set_stdout rest p) eq_refl) as [out Hout'].
        exists out. rewrite Hout'. reflexivity.
Qed.

Lemma append_empty_r (x : string) : x +:+ "" = x.
Proof.
  induction x as [|c x IHx]; [reflexivity|].
  change (String c (x +:+ "") = String c x). f_equal. exact IHx.
Qed.

(** [sep.join] with the empty separator is plain concatenation, in order. *)
Lemma join_empty_sep ls :
  join "" ls = fold_right String.append "" ls.
Proof.
  unfold join. induction ls as [|x [|y ls] IH].
  - reflexivity.
  - cbn [String.concat fold_right]. rewrite append_empty_r. reflexivity.
  - change (String.concat "" (x :: y :: ls))
      with (x +:+ "" +:+ String.concat "" (y :: ls)).
    rewrite IH. reflexivity.
Qed.

End Methods.

(** ** Reading the response *)

(** The specification's terminator is one of the lines the loop stops at. *)
Lemma exact_sentinel_startswith line :
  exact_sentinel line = true -> startswith line "===___===" = true.
Proof.
  unfold exact_sentinel. intros H.
  apply orb_true_iff in H as [H|H]; apply bool_decide_eq_true in H;
    subst line; reflexivity.
Qed.

(** C1, as amended: for a supported type, once the request is written,
    [decode_msg] keeps every line up to the first line that starts with the
    token [===___===] (a prefix test, not an equality), consumes that line
    without keeping it, reads nothing after it, and returns the kept lines
    joined in order: given N lines none of which starts with the token,
    followed by a line that starts with it, the result is those N lines
    joined, for any N >= 0. *)
Theorem decode_msg_reads_until_sentinel
    (fuel : nat) (msg_type : string) (code : Z) (b h : bytes)
    (w : World) (p : Popen) (lines : list string) (s : string)
    (rest : list string) :
  _init_proc_called w = true ->
  _proc w = Some p ->
  SUPPORTED_TYPES !! msg_type = Some code ->
  struct_pack_II code (len b) = Return h ->
  stdout p ++ program p (stdin p ++ h ++ b) = lines ++ s :: rest ->
  Forall (fun l => startswith l "===___===" = false) lines ->
  startswith s "===___===" = true ->
  (length lines < fuel)%nat ->
  decode_msg fuel msg_type b w =
  (Return (Some (join "" lines)),
   set_proc (Some (set_stdout rest (feed (h ++ b) p))) w).
Proof.
  intros Hinit Hp Hcode Hpack Hout Hlines Hs Hfuel.
  rewrite decode_msg_eq, Hinit, Hcode, Hpack, Hp.
  rewrite (read_loop_lines lines fuel [] _ (feed (h ++ b) p) s rest);
    try assumption; reflexivity.
Qed.

Lemma decode_msg_reads_until_sentinel_witness :
  decode_msg 3 "RRC_SIB7" sib7_payload ready_world =
  (Return (Some (join "" ["rrc" +:+ LF; "sib7" +:+ LF])),
   set_proc
     (Some (set_stdout []
              (feed ([x00; x00; x00; x9d; x00; x00; x00; x03] ++ sib7_payload)
                 (mkPopen "/opt/ws_dissector"
                    (<["LD_LIBRARY_PATH" := "/opt/wireshark/lib:/usr/lib"]>
                       sample_environ)
                    [] [] (fake_decoder ["rrc" +:+ LF; "sib7" +:+ LF])))))
     ready_world).
Proof.
  apply (decode_msg_reads_until_sentinel 3 "RRC_SIB7" 157 sib7_payload
           [x00; x00; x00; x9d; x00; x00; x00; x03] ready_world _
           ["rrc" +:+ LF; "sib7" +:+ LF] ("===___===" +:+ LF) []).
  - reflexivity.
  - reflexivity.
  - reflexivity.
  - reflexivity.
  - reflexivity.
  - repeat constructor.
  - reflexivity.
  - cbn. lia.
Defined.

(** C1 as stated fails: a line that starts with the token without being
    equal to it is not a terminator for the specification, yet the loop
    stops at it.  Here the decoder answers one such line and then the
    terminator; the claim promises that line back, the code returns the
    empty string. *)
Lemma decode_msg_exact_sentinel_counterexample :
  exact_sentinel ("===___===x" +:+ LF) = false /\
  exact_sentinel ("===___===" +:+ LF) = true /\
  fst (decode_msg 3 "RRC_SIB7" sib7_payload
         (set_proc
            (Some (mkPopen "/opt/ws_dissector" ∅ [] []
                     (fake_decoder ["===___===x" +:+ LF])))
            ready_world))
  = Return (Some "") /\
  join "" ["===___===x" +:+ LF] <> "".
Proof.
  split; [reflexivity|]. split; [reflexivity|]. split; [reflexivity|].
  discriminate.
Qed.

(** X4: a decoder that never emits a line starting with the token keeps
    [decode_msg] from returning: the loop has no other exit, so whatever
    the number of turns it is given, the call is still running. *)
Lemma decode_msg_hangs_without_sentinel fuel t code b h w p :
  _init_proc_called w = true ->
  _proc w = Some p ->
  SUPPORTED_TYPES !! t = Some code ->
  struct_pack_II code (len b) = Return h ->
  Forall (fun l => startswith l "===___===" = false)
         (stdout p ++ program p (stdin p ++ h ++ b)) ->
  fst (decode_msg fuel t b w) = OutOfFuel.
Proof.
  intros Hinit Hp Hcode Hpack Hall.
  rewrite decode_msg_eq, Hinit, Hcode, Hpack, Hp.
  pose proof (read_loop_never_returns fuel []
                (set_proc (Some (feed (h ++ b) p)) w) (feed (h ++ b) p)
                eq_refl Hall) as Hloop.
  destruct (read_loop fuel [] _) as [[r|e|] w']; cbn [fst] in *;
    congruence.
Qed.

(** ** Writing the request *)

(** What [decode_msg] leaves behind: either it touched nothing, or it wrote
    to the child and consumed some of its output; the flag, the environment
    and the list of children are as before in both cases. *)
Lemma decode_msg_frame fuel t b w :
  snd (decode_msg fuel t b w) = w \/
  exists p data out,
    _proc w = Some p /\
    snd (decode_msg fuel t b w) =
    set_proc (Some (set_stdout out (feed data p))) w.
Proof.
  rewrite decode_msg_eq.
  destruct (_init_proc_called w); [|left; reflexivity].
  destruct (SUPPORTED_TYPES !! t) as [code|]; [|left; reflexivity].
  destruct (struct_pack_II code (len b)) as [h|e|]; try (left; reflexivity).
  destruct (_proc w) as [p|]; [|left; reflexivity].
  right. exists p, (h ++ b).
  destruct (read_loop_frame fuel [] (set_proc (Some (feed (h ++ b) p)) w)
              (feed (h ++ b) p) eq_refl) as [out Hout].
  exists out. split; [reflexivity|].
  destruct (read_loop fuel [] _) as [[r|e|] w']; cbn [snd] in *; exact Hout.
Qed.

(** A payload whose length does not fit the 32-bit field: [struct.pack]
    raises and nothing is written. *)
Lemma decode_msg_struct_error fuel t code b w :
  _init_proc_called w = true ->
  SUPPORTED_TYPES !! t = Some code ->
  2 ^ 32 <= len b ->
  decode_msg fuel t b w = (Raise StructError, w).
Proof.
  intros Hinit Hcode Hlen.
  rewrite decode_msg_eq, Hinit, Hcode.
  rewrite struct_pack_II_too_long; [reflexivity| |exact Hlen].
  apply catalog_range in Hcode. lia.
Qed.

(** C2, as amended: for every ProtocolCode in [0, 2^32) and every payload
    shorter than 2^32 bytes, the request is an 8-byte header, the big-endian
    digits of the code then those of the payload length, followed by the
    payload with no padding, and [decode_msg] appends exactly these bytes to
    the child's stdin; [decode_msg("RRC_SIB7", 01 80 00)] writes
    [00 00 00 9D 00 00 00 03 01 80 00]. *)
Theorem decode_msg_request_bytes (code : Z) (b : bytes) :
  0 <= code < 2 ^ 32 ->
  len b < 2 ^ 32 ->
  (exists h,
      struct_pack_II code (len b) = Return h /\
      length h = 8%nat /\
      map Z_of_byte h = big_endian_32 code ++ big_endian_32 (len b) /\
      forall fuel msg_type w p,
        _init_proc_called w = true ->
        _proc w = Some p ->
        SUPPORTED_TYPES !! msg_type = Some code ->
        stdin <$> _proc (snd (decode_msg fuel msg_type b w)) =
        Some (stdin p ++ h ++ b)) /\
  stdin <$> _proc (snd (decode_msg 3 "RRC_SIB7" sib7_payload ready_world)) =
  Some [x00; x00; x00; x9d; x00; x00; x00; x03; x01; x80; x00].
Proof.
  intros Hcode Hlen. split; [|reflexivity].
  exists (be32 code ++ be32 (len b)).
  assert (Hpack : struct_pack_II code (len b) = Return (be32 code ++ be32 (len b))).
  { apply struct_pack_II_in_range; [exact Hcode|].
    split; [apply len_nonneg|exact Hlen]. }
  split; [exact Hpack|]. split; [reflexivity|].
  split; [rewrite map_app, !be32_digits; reflexivity|].
  intros fuel msg_type w p Hinit Hp Hlookup.
  rewrite decode_msg_eq, Hinit, Hlookup, Hpack, Hp.
  destruct (read_loop_frame fuel []
              (set_proc (Some (feed ((be32 code ++ be32 (len b)) ++ b) p)) w)
              (feed ((be32 code ++ be32 (len b)) ++ b) p) eq_refl)
    as [out Hout].
  destruct (read_loop fuel [] _) as [[r|e|] w']; cbn [snd] in *;
    rewrite Hout; reflexivity.
Qed.

Lemma decode_msg_request_bytes_witness :
  (exists h,
      struct_pack_II 157 (len sib7_payload) = Return h /\
      length h = 8%nat /\
      map Z_of_byte h = big_endian_32 157 ++ big_endian_32 (len sib7_payload) /\
      forall fuel msg_type w p,
        _init_proc_called w = true ->
        _proc w = Some p ->
        SUPPORTED_TYPES !! msg_type = Some 157 ->
        stdin <$> _proc (snd (decode_msg fuel msg_type sib7_payload w)) =
        Some (stdin p ++ h ++ sib7_payload)) /\
  stdin <$> _proc (snd (decode_msg 3 "RRC_SIB7" sib7_payload ready_world)) =
  Some [x00; x00; x00; x9d; x00; x00; x00; x03; x01; x80; x00].
Proof.
  apply (decode_msg_request_bytes 157 sib7_payload); [lia | reflexivity].
Defined.

(** C2 as stated fails for a payload of 2^32 bytes: its length has no
    4-byte encoding, [struct.pack] raises [struct.error], and no byte
    reaches the child. *)
Lemma decode_msg_request_bytes_counterexample :
  decode_msg 3 "RRC_SIB7" (repeat x00 (Z.to_nat 4294967296)) ready_world =
  (Raise StructError, ready_world) /\
  stdin <$> _proc ready_world = Some [].
Proof.
  split; [|reflexivity].
  apply (decode_msg_struct_error 3 "RRC_SIB7" 157).
  - reflexivity.
  - reflexivity.
  - unfold len. rewrite repeat_length. lia.
Qed.

(** ** Unsupported types *)

(** C3: once initialized, [decode_msg] on a name that is not in the catalog
    returns [None] and leaves the whole world as it was: nothing is written
    to the child and nothing is read from it. *)
Theorem decode_msg_unsupported
    (fuel : nat) (msg_type : string) (b : bytes) (w : World) :
  _init_proc_called w = true ->
  SUPPORTED_TYPES !! msg_type = None ->
  decode_msg fuel msg_type b w = (Return None, w).
Proof.
  intros Hinit Hnone. rewrite decode_msg_eq, Hinit, Hnone. reflexivity.
Qed.

Lemma decode_msg_unsupported_witness :
  decode_msg 3 "UNKNOWN_TYPE" sib7_payload ready_world =
  (Return None, ready_world).
Proof.
  apply (decode_msg_unsupported 3 "UNKNOWN_TYPE" sib7_payload ready_world);
    reflexivity.
Defined.

(** ** Initialization *)

Section Supervisor.

Implicit Types (w : World) (c : call) (cs : list call).

Lemma init_proc_again e l w :
  _init_proc_called w = true -> init_proc e l w = (Return tt, w).
Proof. intros H. rewrite init_proc_eq, H. reflexivity. Qed.

(** A call of [init_proc] that returns leaves the flag set. *)
Lemma init_proc_sets_flag e l w w' :
  init_proc e l w = (Return tt, w') -> _init_proc_called w' = true.
Proof.
  rewrite init_proc_eq.
  destruct (_init_proc_called w) eqn:Hflag.
  - intros [= <-]. exact Hflag.
  - cbv zeta. destruct (executables w !! e); [|discriminate].
    intros [= <-]. reflexivity.
Qed.

(** Once the flag is set, no call changes what initialization decided. *)
Lemma do_call_ready c w :
  _init_proc_called w = true -> supervision (do_call c w) = supervision w.
Proof.
  intros Hflag. destruct c as [e l|fuel t b]; cbn [do_call].
  - rewrite init_proc_again by exact Hflag. reflexivity.
  - destruct (decode_msg_frame fuel t b w) as [->|(p & data & out & Hp & ->)];
      [reflexivity|].
    unfold supervision, handle. cbn. rewrite Hp. reflexivity.
Qed.

Lemma run_ready cs :
  forall w,
    _init_proc_called w = true -> supervision (run cs w) = supervision w.
Proof.
  induction cs as [|c cs IH]; intros w Hflag; [reflexivity|].
  pose proof (do_call_ready c w Hflag) as Hstep.
  change (run (c :: cs) w) with (run cs (do_call c w)).
  rewrite IH; [exact Hstep|].
  unfold supervision in Hstep. congruence.
Qed.

Lemma do_call_one_child c w : one_child w -> one_child (do_call c w).
Proof.
  unfold one_child. intros Hinv.
  destruct (_init_proc_called w) eqn:Hflag.
  - pose proof (do_call_ready c w Hflag) as Hstep.
    unfold supervision in Hstep.
    assert (Hf : _init_proc_called (do_call c w) = true) by congruence.
    assert (Hc : children (do_call c w) = children w) by congruence.
    rewrite Hf, Hc. exact Hinv.
  - destruct c as [e l|fuel t b]; cbn [do_call].
    + rewrite init_proc_eq, Hflag. cbv zeta.
      destruct (executables w !! e); cbn.
      * rewrite Hinv. reflexivity.
      * rewrite Hflag. exact Hinv.
    + rewrite decode_msg_eq, Hflag. cbn. rewrite Hflag. exact Hinv.
Qed.

Lemma run_one_child cs : forall w, one_child w -> one_child (run cs w).
Proof.
  induction cs as [|c cs IH]; intros w Hinv; [exact Hinv|].
  change (run (c :: cs) w) with (run cs (do_call c w)).
  apply IH, do_call_one_child, Hinv.
Qed.

Lemma one_child_bound w : one_child w -> (length (children w) <= 1)%nat.
Proof.
  unfold one_child. destruct (_init_proc_called w); intros ->; cbn; lia.
Qed.

End Supervisor.

(** C4: after a call of [init_proc] that succeeded, every further call,
    with whatever arguments, returns at once and leaves the whole world as
    it is; across any later calls of the two methods the flag, the process
    handle, the host environment and the list of children stay the same;
    and counting from the class as defined, one child exists after the
    first success and never more than one at any time. *)
Theorem init_proc_idempotent (e l : string) (w w1 : World) :
  init_proc e l w = (Return tt, w1) ->
  (forall e' l', init_proc e' l' w1 = (Return tt, w1)) /\
  (forall cs, supervision (run cs w1) = supervision w1) /\
  (_init_proc_called w = false -> children w = [] ->
   forall cs, length (children (run cs w1)) = 1%nat) /\
  (forall environ exes cs,
      (length (children (run cs (initial_world environ exes))) <= 1)%nat).
Proof.
  intros Hcall.
  pose proof (init_proc_sets_flag e l w w1 Hcall) as Hflag.
  split; [intros e' l'; apply init_proc_again, Hflag|].
  split; [intros cs; apply run_ready, Hflag|].
  split.
  - intros Hunset Hnone cs.
    pose proof (run_ready cs w1 Hflag) as Hsame.
    unfold supervision in Hsame.
    assert (Hc : children (run cs w1) = children w1) by congruence.
    rewrite Hc. clear Hc Hsame.
    rewrite init_proc_eq, Hunset in Hcall. cbv zeta in Hcall.
    destruct (executables w !! e); [|discriminate].
    injection Hcall as <-. cbn. rewrite Hnone. reflexivity.
  - intros environ exes cs.
    apply one_child_bound, run_one_child. reflexivity.
Qed.

Lemma init_proc_idempotent_witness :
  (forall e' l', init_proc e' l' ready_world = (Return tt, ready_world)) /\
  (forall cs, supervision (run cs ready_world) = supervision ready_world) /\
  (_init_proc_called fresh_world = false -> children fresh_world = [] ->
   forall cs, length (children (run cs ready_world)) = 1%nat) /\
  (forall environ exes cs,
      (length (children (run cs (initial_world environ exes))) <= 1)%nat).
Proof.
  apply (init_proc_idempotent "/opt/ws_dissector" "/opt/wireshark/lib"
           fresh_world ready_world).
  reflexivity.
Defined.

(** C8: on a first call of [init_proc] that can start the executable, the
    child's environment has [LD_LIBRARY_PATH] set to the library directory,
    the path separator, and the inherited value (the empty string when the
    variable was unset), and every other variable as in the host
    environment, which is itself left as it was. *)
Theorem init_proc_child_environment
    (e l : string) (w : World) (prog : bytes -> list string) :
  _init_proc_called w = false ->
  executables w !! e = Some prog ->
  exists p w',
    init_proc e l w = (Return tt, w') /\
    _proc w' = Some p /\
    args p = e /\
    env p !! "LD_LIBRARY_PATH" =
      Some (l +:+ posix_pathsep +:+
            default "" (os_environ w !! "LD_LIBRARY_PATH")) /\
    (forall k, k <> "LD_LIBRARY_PATH" -> env p !! k = os_environ w !! k) /\
    children w' = children w ++ [(e, env p)] /\
    os_environ w' = os_environ w.
Proof.
  intros Hflag Hexe.
  eexists _, _. split.
  { rewrite init_proc_eq, Hflag. cbv zeta. rewrite Hexe. reflexivity. }
  cbn. split; [reflexivity|]. split; [reflexivity|].
  split; [apply lookup_insert_eq|].
  split; [|split; reflexivity].
  intros k Hk. apply lookup_insert_ne. congruence.
Qed.

Lemma init_proc_child_environment_witness :
  exists p w',
    init_proc "/opt/ws_dissector" "/opt/wireshark/lib" fresh_world =
      (Return tt, w') /\
    _proc w' = Some p /\
    args p = "/opt/ws_dissector" /\
    env p !! "LD_LIBRARY_PATH" =
      Some ("/opt/wireshark/lib" +:+ posix_pathsep +:+
            default "" (os_environ fresh_world !! "LD_LIBRARY_PATH")) /\
    (forall k, k <> "LD_LIBRARY_PATH" ->
               env p !! k = os_environ fresh_world !! k) /\
    children w' = children fresh_world ++ [("/opt/ws_dissector", env p)] /\
    os_environ w' = os_environ fresh_world.
Proof.
  apply (init_proc_child_environment "/opt/ws_dissector" "/opt/wireshark/lib"
           fresh_world (fake_decoder ["rrc" +:+ LF; "sib7" +:+ LF]));
    reflexivity.
Defined.

(** ** Use before initialization *)

(** The loop raises only what [readline] raises. *)
Lemma read_loop_no_assertion fuel :
  forall acc w p,
    _proc w = Some p -> fst (read_loop fuel acc w) <> Raise AssertionError.
Proof.
  induction fuel as [|n IH]; intros acc w p Hp; [discriminate|].
  destruct (stdout p) as [|x rest] eqn:Hout.
  - rewrite (read_loop_eof n acc w p Hp Hout). apply (IH _ _ p Hp).
  - destruct (startswith x "===___===") eqn:Hx.
    + rewrite (read_loop_stop n acc w p x rest Hp Hout Hx). discriminate.
    + rewrite (read_loop_keep n acc w p x rest Hp Hout Hx).
      apply (IH _ _ (set_stdout rest p)). reflexivity.
Qed.

Lemma decode_msg_uninitialized fuel t b w :
  _init_proc_called w = false ->
  decode_msg fuel t b w = (Raise AssertionError, w).
Proof. intros H. rewrite decode_msg_eq, H. reflexivity. Qed.

Lemma decode_msg_initialized fuel t b w :
  _init_proc_called w = true ->
  fst (decode_msg fuel t b w) <> Raise AssertionError.
Proof.
  intros H. rewrite decode_msg_eq, H.
  destruct (SUPPORTED_TYPES !! t) as [code|]; [|discriminate].
  destruct (struct_pack_II code (len b)) as [h|e|] eqn:Hpack.
  - destruct (_proc w) as [p|]; [|discriminate].
    destruct (read_loop fuel [] _) as [[r|e|] w'] eqn:Hloop;
      cbn [fst]; try discriminate.
    intros [= ->].
    pose proof (read_loop_no_assertion fuel []
                  (set_proc (Some (feed (h ++ b) p)) w) (feed (h ++ b) p)
                  eq_refl) as Hno.
    rewrite Hloop in Hno. apply Hno. reflexivity.
  - unfold struct_pack_II, pack_I in Hpack.
    repeat case_decide; try discriminate; injection Hpack as <-; discriminate.
  - discriminate.
Qed.

(** C7: in a world where [init_proc] has not succeeded, [decode_msg] raises
    [AssertionError], for every message type and payload, and does nothing
    else; the flag stays unset across every call that is not a successful
    [init_proc]; and once [init_proc] has succeeded, no call of
    [decode_msg], then or after any further calls, raises
    [AssertionError]. *)
Theorem decode_msg_requires_init
    (fuel : nat) (msg_type : string) (b : bytes) (w : World) :
  (_init_proc_called w = false ->
   decode_msg fuel msg_type b w = (Raise AssertionError, w)) /\
  (_init_proc_called w = false ->
   forall c,
     (forall e l, c = InitProc e l -> fst (init_proc e l w) <> Return tt) ->
     _init_proc_called (do_call c w) = false) /\
  (forall e l w0 cs,
      init_proc e l w0 = (Return tt, w) ->
      fst (decode_msg fuel msg_type b (run cs w)) <> Raise AssertionError).
Proof.
  split; [apply decode_msg_uninitialized|]. split.
  - intros Hflag c Hfail. destruct c as [e l|fuel' t b']; cbn [do_call].
    + specialize (Hfail e l eq_refl).
      rewrite init_proc_eq, Hflag in *. cbv zeta in *.
      destruct (executables w !! e); [|exact Hflag].
      exfalso. apply Hfail. reflexivity.
    + rewrite decode_msg_uninitialized by exact Hflag. exact Hflag.
  - intros e l w0 cs Hcall.
    apply decode_msg_initialized.
    pose proof (init_proc_sets_flag e l w0 w Hcall) as Hflag.
    pose proof (run_ready cs w Hflag) as Hsame.
    unfold supervision in Hsame. congruence.
Qed.

Lemma decode_msg_requires_init_witness :
  decode_msg 3 "RRC_SIB7" sib7_payload fresh_world =
    (Raise AssertionError, fresh_world) /\
  fst (decode_msg 3 "RRC_SIB7" sib7_payload
         (run [DecodeMsg 3 "RRC_MIB" sib7_payload;
               InitProc "/opt/mute" "/lib"] ready_world))
  <> Raise AssertionError.
Proof.
  split.
  - apply (proj1 (decode_msg_requires_init 3 "RRC_SIB7" sib7_payload
                    fresh_world)).
    reflexivity.
  - apply (proj2 (proj2 (decode_msg_requires_init 3 "RRC_SIB7" sib7_payload
                           ready_world))
             "/opt/ws_dissector" "/opt/wireshark/lib" fresh_world).
    reflexivity.
Defined.

(** C9: the initialization check comes before the catalog lookup: with the
    flag unset, [decode_msg] raises [AssertionError] for every message
    type, in the catalog or not, and so never returns [None]; the very same
    call on a name absent from the catalog returns [None] as soon as the
    flag is set. *)
Theorem init_check_precedes_lookup
    (fuel : nat) (msg_type : string) (b : bytes) (w : World) :
  _init_proc_called w = false ->
  fst (decode_msg fuel msg_type b w) = Raise AssertionError /\
  fst (decode_msg fuel msg_type b w) <> Return None /\
  snd (decode_msg fuel msg_type b w) = w /\
  (SUPPORTED_TYPES !! msg_type = None ->
   fst (decode_msg fuel msg_type b (set_init_proc_called true w)) =
   Return None).
Proof.
  intros Hflag. rewrite decode_msg_uninitialized by exact Hflag.
  split; [reflexivity|]. split; [discriminate|]. split; [reflexivity|].
  intros Hnone. rewrite decode_msg_eq. cbn [_init_proc_called set_init_proc_called].
  rewrite Hnone. reflexivity.
Qed.

Lemma init_check_precedes_lookup_witness :
  fst (decode_msg 3 "UNKNOWN_TYPE" sib7_payload fresh_world) =
    Raise AssertionError /\
  fst (decode_msg 3 "UNKNOWN_TYPE" sib7_payload fresh_world) <> Return None /\
  snd (decode_msg 3 "UNKNOWN_TYPE" sib7_payload fresh_world) = fresh_world /\
  (SUPPORTED_TYPES !! "UNKNOWN_TYPE" = None ->
   fst (decode_msg 3 "UNKNOWN_TYPE" sib7_payload
          (set_init_proc_called true fresh_world)) =
   Return None).
Proof.
  apply (init_check_precedes_lookup 3 "UNKNOWN_TYPE" sib7_payload fresh_world).
  reflexivity.
Defined.

(** ** Telling "not supported" from an empty dissection *)

(** C10: once initialized, [decode_msg] returns [None] exactly when the
    type is not in the catalog; a supported request answered by the
    terminator alone returns the empty string, which is not [None]. *)
Theorem not_supported_is_distinct
    (fuel : nat) (msg_type : string) (b : bytes) (w : World) :
  _init_proc_called w = true ->
  (fst (decode_msg fuel msg_type b w) = Return None <->
   SUPPORTED_TYPES !! msg_type = None) /\
  (forall code h p s rest,
      SUPPORTED_TYPES !! msg_type = Some code ->
      _proc w = Some p ->
      struct_pack_II code (len b) = Return h ->
      stdout p ++ program p (stdin p ++ h ++ b) = s :: rest ->
      startswith s "===___===" = true ->
      (0 < fuel)%nat ->
      fst (decode_msg fuel msg_type b w) = Return (Some "")) /\
  Return (Some "") <> @Return (option string) None.
Proof.
  intros Hflag. split; [|split; [|discriminate]].
  - rewrite decode_msg_eq, Hflag. split.
    + destruct (SUPPORTED_TYPES !! msg_type) as [code|]; [|reflexivity].
      destruct (struct_pack_II code (len b)) as [h|e|]; try discriminate.
      destruct (_proc w) as [p|]; [|discriminate].
      destruct (read_loop fuel [] _) as [[r|e|] w']; discriminate.
    + intros ->. reflexivity.
  - intros code h p s rest Hcode Hp Hpack Hout Hs Hfuel.
    rewrite decode_msg_eq, Hflag, Hcode, Hpack, Hp.
    destruct fuel as [|fuel]; [lia|].
    rewrite (read_loop_stop fuel [] (set_proc (Some (feed (h ++ b) p)) w)
               (feed (h ++ b) p) s rest eq_refl Hout Hs).
    reflexivity.
Qed.

Lemma not_supported_is_distinct_witness :
  fst (decode_msg 3 "RRC_SIB7" sib7_payload mute_world) = Return (Some "") /\
  (fst (decode_msg 3 "UNKNOWN_TYPE" sib7_payload mute_world) = Return None <->
   SUPPORTED_TYPES !! "UNKNOWN_TYPE" = None).
Proof.
  split.
  - destruct (not_supported_is_distinct 3 "RRC_SIB7" sib7_payload mute_world
                eq_refl) as (_ & Hempty & _).
    eapply (Hempty 157 [x00; x00; x00; x9d; x00; x00; x00; x03]);
      [reflexivity|reflexivity|reflexivity|reflexivity|reflexivity|lia].
  - apply (not_supported_is_distinct 3 "UNKNOWN_TYPE" sib7_payload mute_world).
    reflexivity.
Defined.

(** * Further properties of the module *)

(** ** The catalog as a code table *)

(** X1: no two names of the catalog share a code, so a code on the wire
    names one message type. *)
Theorem catalog_codes_distinct (name1 name2 : string) (code : Z) :
  SUPPORTED_TYPES !! name1 = Some code ->
  SUPPORTED_TYPES !! name2 = Some code ->
  name1 = name2.
Proof.
  intros H1 H2. apply catalog_cases in H1. apply catalog_cases in H2.
  repeat (apply elem_of_cons in H1 as [H1|H1];
          [ injection H1 as -> ->;
            repeat (apply elem_of_cons in H2 as [H2|H2];
                    [ inversion H2; subst; first [reflexivity | discriminate] |]);
            inversion H2 |]).
  inversion H1.
Qed.

Lemma catalog_codes_distinct_witness : "RRC_SIB7" = "RRC_SIB7".
Proof.
  apply (catalog_codes_distinct "RRC_SIB7" "RRC_SIB7" 157); reflexivity.
Defined.

(** X2: the codes follow the ranges the table is commented with: the
    [RRC_] names (WCDMA) have the codes from 100 to 199, among them the
    system information blocks ([RRC_MIB], [RRC_SIB...]) those from 150 on,
    and the [LTE-] names have the codes from 200 to 299. *)
Theorem catalog_code_ranges (name : string) (code : Z) :
  SUPPORTED_TYPES !! name = Some code ->
  (startswith name "RRC_" = true <-> 100 <= code <= 199) /\
  (startswith name "RRC_MIB" || startswith name "RRC_SIB" = true
   <-> 150 <= code <= 199) /\
  (startswith name "LTE-" = true <-> 200 <= code <= 299) /\
  100 <= code <= 299.
Proof.
  intros H. apply catalog_cases in H.
  repeat (apply elem_of_cons in H as [H|H];
          [ injection H as -> ->;
            repeat split; intros; first [reflexivity | lia | discriminate] |]).
  inversion H.
Qed.

Lemma catalog_code_ranges_witness :
  (startswith "LTE-NAS_EPS_PLAIN" "RRC_" = true <-> 100 <= 250 <= 199) /\
  (startswith "LTE-NAS_EPS_PLAIN" "RRC_MIB"
   || startswith "LTE-NAS_EPS_PLAIN" "RRC_SIB" = true
   <-> 150 <= 250 <= 199) /\
  (startswith "LTE-NAS_EPS_PLAIN" "LTE-" = true <-> 200 <= 250 <= 299) /\
  100 <= 250 <= 299.
Proof.
  apply (catalog_code_ranges "LTE-NAS_EPS_PLAIN" 250). reflexivity.
Defined.

(** ** Requests on the wire *)

Lemma struct_pack_II_inv v1 v2 h :
  struct_pack_II v1 v2 = Return h ->
  0 <= v1 < 2 ^ 32 /\ 0 <= v2 < 2 ^ 32 /\ h = be32 v1 ++ be32 v2.
Proof.
  unfold struct_pack_II, pack_I.
  repeat case_decide; try discriminate.
  intros [= <-]. repeat split; lia.
Qed.

Lemma be32_inj v v' :
  0 <= v < 2 ^ 32 -> 0 <= v' < 2 ^ 32 -> be32 v = be32 v' -> v = v'.
Proof.
  intros Hv Hv' Heq.
  rewrite <- (unpack_I_be32 v Hv), <- (unpack_I_be32 v' Hv'), Heq.
  reflexivity.
Qed.

(** X3: the framing is unambiguous: when two requests, each followed by
    whatever comes next on the pipe, give the same bytes, they have the
    same code and the same payload, and what follows them is the same.  A
    reader of the child's stdin can therefore cut the stream into the
    requests that were written. *)
Theorem request_framing_unambiguous
    (code code' : Z) (b b' h h' rest rest' : bytes) :
  struct_pack_II code (len b) = Return h ->
  struct_pack_II code' (len b') = Return h' ->
  (h ++ b) ++ rest = (h' ++ b') ++ rest' ->
  code = code' /\ b = b' /\ rest = rest'.
Proof.
  intros Hh Hh' Heq.
  apply struct_pack_II_inv in Hh as (Hc & Hl & ->).
  apply struct_pack_II_inv in Hh' as (Hc' & Hl' & ->).
  rewrite <- !app_assoc in Heq.
  assert (Hcode : be32 code = be32 code' /\
                  be32 (len b) ++ b ++ rest = be32 (len b') ++ b' ++ rest').
  { apply app_inj_1 in Heq; [exact Heq | reflexivity]. }
  destruct Hcode as [Hcode Heq'].
  assert (Hlen : be32 (len b) = be32 (len b') /\ b ++ rest = b' ++ rest').
  { apply app_inj_1 in Heq'; [exact Heq' | reflexivity]. }
  destruct Hlen as [Hlen Heq''].
  apply be32_inj in Hcode; [|assumption..].
  apply be32_inj in Hlen; [|assumption..].
  unfold len in Hlen.
  apply app_inj_1 in Heq''; [|lia].
  destruct Heq'' as [-> ->]. auto.
Qed.

Lemma request_framing_unambiguous_witness :
  157 = 157 /\ sib7_payload = sib7_payload /\ [x00] = [x00].
Proof.
  apply (request_framing_unambiguous 157 157 sib7_payload sib7_payload
           [x00; x00; x00; x9d; x00; x00; x00; x03]
           [x00; x00; x00; x9d; x00; x00; x00; x03] [x00] [x00]);
    reflexivity.
Defined.

Lemma decode_msg_hangs_without_sentinel_witness :
  fst (decode_msg 1000 "RRC_SIB7" sib7_payload endless_world) = OutOfFuel.
Proof.
  apply (decode_msg_hangs_without_sentinel 1000 "RRC_SIB7" 157 sib7_payload
           [x00; x00; x00; x9d; x00; x00; x00; x03] endless_world
           (mkPopen "/opt/endless" ∅ [] [] endless_decoder));
    try reflexivity.
  repeat constructor.
Defined.

(** X5: when lines of an earlier answer are still in the pipe, terminator
    included, [decode_msg] returns those lines: it writes its request, but
    what the decoder answers to it is not read and stays in the pipe for
    the next call. *)
Theorem decode_msg_returns_stale_lines
    (fuel : nat) (msg_type : string) (code : Z) (b h : bytes)
    (w : World) (p : Popen) (lines : list string) (s : string)
    (rest : list string) :
  _init_proc_called w = true ->
  _proc w = Some p ->
  SUPPORTED_TYPES !! msg_type = Some code ->
  struct_pack_II code (len b) = Return h ->
  stdout p = lines ++ s :: rest ->
  Forall (fun l => startswith l "===___===" = false) lines ->
  startswith s "===___===" = true ->
  (length lines < fuel)%nat ->
  decode_msg fuel msg_type b w =
  (Return (Some (join "" lines)),
   set_proc
     (Some (set_stdout (rest ++ program p (stdin p ++ h ++ b))
              (feed (h ++ b) p))) w).
Proof.
  intros Hinit Hp Hcode Hpack Hout Hlines Hs Hfuel.
  rewrite decode_msg_eq, Hinit, Hcode, Hpack, Hp.
  rewrite (read_loop_lines lines fuel []
             (set_proc (Some (feed (h ++ b) p)) w) (feed (h ++ b) p) s
             (rest ++ program p (stdin p ++ h ++ b)));
    try assumption; try reflexivity.
  cbn [stdout feed]. rewrite Hout, <- app_assoc. reflexivity.
Qed.

Lemma decode_msg_returns_stale_lines_witness :
  fst (decode_msg 3 "RRC_SIB7" sib7_payload
         (set_proc
            (Some (mkPopen "/opt/ws_dissector" ∅ [] ["old" +:+ LF; "===___===" +:+ LF]
                     (fake_decoder ["new" +:+ LF])))
            ready_world))
  = Return (Some ("old" +:+ LF)).
Proof.
  rewrite (decode_msg_returns_stale_lines 3 "RRC_SIB7" 157 sib7_payload
             [x00; x00; x00; x9d; x00; x00; x00; x03] _
             (mkPopen "/opt/ws_dissector" ∅ [] ["old" +:+ LF; "===___===" +:+ LF]
                (fake_decoder ["new" +:+ LF]))
             ["old" +:+ LF] ("===___===" +:+ LF) []);
    try reflexivity.
  - repeat constructor.
  - cbn. lia.
Defined.

(** X6: [decode_msg] never starts, replaces or drops the child and never
    touches the flag, the host environment or the programs: whatever its
    outcome, these are as before, the child runs the same program, and the
    bytes on its stdin are the ones that were there, possibly followed by
    more. *)
Theorem decode_msg_keeps_the_child
    (fuel : nat) (msg_type : string) (b : bytes) (w : World) :
  supervision (snd (decode_msg fuel msg_type b w)) = supervision w /\
  executables (snd (decode_msg fuel msg_type b w)) = executables w /\
  match _proc w with
  | None => _proc (snd (decode_msg fuel msg_type b w)) = None
  | Some p =>
      exists p' data,
        _proc (snd (decode_msg fuel msg_type b w)) = Some p' /\
        program p' = program p /\
        stdin p' = stdin p ++ data
  end.
Proof.
  destruct (decode_msg_frame fuel msg_type b w)
    as [->|(p & data & out & Hp & ->)].
  - split; [reflexivity|]. split; [reflexivity|].
    destruct (_proc w) as [p|]; [|reflexivity].
    exists p, []. rewrite app_nil_r. auto.
  - split; [unfold supervision, handle; cbn; rewrite Hp; reflexivity|].
    split; [reflexivity|].
    rewrite Hp. exists (set_stdout out (feed data p)), data. auto.
Qed.

(** ** Failure of [init_proc] *)



(** ** Invariants of the class *)

Section Invariants.

Implicit Types (w : World) (c : call) (cs : list call).

Lemma do_call_consistent c w : consistent w -> consistent (do_call c w).
Proof.
  unfold consistent. intros Hinv.
  destruct (_init_proc_called w) eqn:Hflag.
  - destruct Hinv as (p & Hp & Hch & Hexe).
    destruct c as [e l|fuel t b]; cbn [do_call].
    + rewrite init_proc_again by exact Hflag. cbn [snd]. rewrite Hflag.
      exists p. auto.
    + destruct (decode_msg_frame fuel t b w)
        as [->|(p' & data & out & Hp' & ->)].
      * rewrite Hflag. exists p. auto.
      * cbn [_init_proc_called set_proc]. rewrite Hflag.
        rewrite Hp in Hp'. injection Hp' as <-.
        exists (set_stdout out (feed data p)). auto.
  - destruct Hinv as [Hp Hch].
    destruct c as [e l|fuel t b]; cbn [do_call].
    + rewrite init_proc_eq, Hflag. cbv zeta.
      destruct (executables w !! e) as [prog|] eqn:Hexe; cbn.
      * eexists. split; [reflexivity|]. cbn. rewrite Hch. auto.
      * rewrite Hflag. auto.
    + rewrite decode_msg_uninitialized by exact Hflag. cbn [snd].
      rewrite Hflag. auto.
Qed.

Lemma run_consistent cs : forall w, consistent w -> consistent (run cs w).
Proof.
  induction cs as [|c cs IH]; intros w Hinv; [exact Hinv|].
  change (run (c :: cs) w) with (run cs (do_call c w)).
  apply IH, do_call_consistent, Hinv.
Qed.


(** One call in an initialized world: the child's stdin grows by what the
    call writes. *)
Lemma do_call_stdin c w p :
  _init_proc_called w = true -> _proc w = Some p ->
  _init_proc_called (do_call c w) = true /\
  exists p',
    _proc (do_call c w) = Some p' /\
    stdin p' = stdin p ++ written_by c.
Proof.
  intros Hflag Hp.
  destruct c as [e l|fuel t b]; cbn [do_call written_by].
  - rewrite init_proc_again by exact Hflag. cbn [snd].
    split; [exact Hflag|]. exists p. rewrite app_nil_r. auto.
  - rewrite decode_msg_eq, Hflag.
    destruct (SUPPORTED_TYPES !! t) as [code|].
    2:{ cbn [snd]. split; [exact Hflag|]. exists p. rewrite app_nil_r. auto. }
    destruct (struct_pack_II code (len b)) as [h|ex|].
    2,3: cbn [snd]; (split; [exact Hflag|]); exists p; rewrite app_nil_r; auto.
    rewrite Hp.
    destruct (read_loop_frame fuel [] (set_proc (Some (feed (h ++ b) p)) w)
                (feed (h ++ b) p) eq_refl) as [out Hout].
    destruct (read_loop fuel [] _) as [[r|ex|] w']; cbn [snd] in *;
      subst w'; (split; [exact Hflag|]);
      exists (set_stdout out (feed (h ++ b) p)); auto.
Qed.

End Invariants.

(** X8: in every world a host program can reach, the flag, the process
    object and the operating system agree: while the flag is unset there
    is no process object and no child; once it is set there is a process
    object, it is the one child ever started, and it runs the program
    found at its path. *)
Theorem reachable_worlds_consistent (w : World) :
  reachable w -> consistent w.
Proof.
  intros (environ & exes & cs & ->).
  apply run_consistent. unfold consistent. cbn. auto.
Qed.

Lemma reachable_worlds_consistent_witness : consistent ready_world.
Proof.
  apply (reachable_worlds_consistent ready_world).
  exists sample_environ, sample_executables,
         [InitProc "/opt/ws_dissector" "/opt/wireshark/lib"].
  reflexivity.
Defined.



(** X10: the child's stdin is the log of the requests: after any calls on
    an initialized class it holds what it held before followed by the
    requests of the [decode_msg] calls, in the order of the calls, each
    whole and none twice; calls of [init_proc], calls on unsupported types
    and calls that raise [struct.error] add nothing, and calls that do not
    return have still written their request. *)
Theorem stdin_is_request_log (cs : list call) (w : World) (p : Popen) :
  _init_proc_called w = true ->
  _proc w = Some p ->
  stdin <$> _proc (run cs w) = Some (stdin p ++ flat_map written_by cs).
Proof.
  revert w p. induction cs as [|c cs IH]; intros w p Hflag Hp.
  - cbn. rewrite Hp, app_nil_r. reflexivity.
  - change (run (c :: cs) w) with (run cs (do_call c w)).
    destruct (do_call_stdin c w p Hflag Hp) as (Hflag' & p' & Hp' & Hin).
    rewrite (IH _ p' Hflag' Hp'), Hin.
    cbn [flat_map]. rewrite <- app_assoc. reflexivity.
Qed.

Lemma stdin_is_request_log_witness :
  stdin <$> _proc (run [DecodeMsg 3 "RRC_SIB7" sib7_payload;
                        DecodeMsg 3 "UNKNOWN_TYPE" sib7_payload;
                        InitProc "/opt/mute" "/lib";
                        DecodeMsg 0 "RRC_MIB" [x60]] ready_world) =
  Some ([] ++ flat_map written_by
                [DecodeMsg 3 "RRC_SIB7" sib7_payload;
                 DecodeMsg 3 "UNKNOWN_TYPE" sib7_payload;
                 InitProc "/opt/mute" "/lib";
                 DecodeMsg 0 "RRC_MIB" [x60]]).
Proof.
  apply (stdin_is_request_log _ ready_world
           (mkPopen "/opt/ws_dissector"
              (<["LD_LIBRARY_PATH" := "/opt/wireshark/lib:/usr/lib"]>
                 sample_environ)
              [] [] (fake_decoder ["rrc" +:+ LF; "sib7" +:+ LF])));
    reflexivity.
Defined.

(** ** The self-test *)

Section SelfTest.







End SelfTest.












(** ** What a return of [decode_msg] tells *)

(** The loop returns only by meeting a terminator. *)
Lemma read_loop_return_inv fuel :
  forall acc w p r w',
    _proc w = Some p ->
    read_loop fuel acc w = (Return r, w') ->
    exists lines s rest,
      stdout p = lines ++ s :: rest /\
      Forall (fun l => startswith l "===___===" = false) lines /\
      startswith s "===___===" = true /\
      r = acc ++ lines /\
      (length lines < fuel)%nat.
Proof.
  induction fuel as [|n IH]; intros acc w p r w' Hp Hrun; [discriminate|].
  destruct (stdout p) as [|x rest0] eqn:Hout.
  - rewrite (read_loop_eof n acc w p Hp Hout) in Hrun.
    destruct (IH _ _ _ _ _ Hp Hrun) as (lines & s & rest & Hshape & _).
    rewrite Hout in Hshape. destruct lines; discriminate.
  - destruct (startswith x "===___===") eqn:Hx.
    + rewrite (read_loop_stop n acc w p x rest0 Hp Hout Hx) in Hrun.
      injection Hrun as <- _.
      exists [], x, rest0. rewrite app_nil_r.
      repeat split; [constructor|exact Hx|cbn; lia].
    + rewrite (read_loop_keep n acc w p x rest0 Hp Hout Hx) in Hrun.
      destruct (IH (acc ++ [x]) (set_proc (Some (set_stdout rest0 p)) w)
                  (set_stdout rest0 p) r w' eq_refl Hrun)
        as (lines & s & rest & Hshape & Hall & Hs & -> & Hlen).
      cbn [stdout set_stdout] in Hshape.
      exists (x :: lines), s, rest. rewrite Hshape, <- app_assoc.
      repeat split; [constructor; assumption|exact Hs|cbn; lia].
Qed.

(** X14: a text returned by [decode_msg] is always a whole answer: the
    pipe, after the request was written, began with lines none of which
    starts with the token, then a line that does, and the text is those
    lines joined.  Reaching the end of the child's output never makes the
    call return. *)
Theorem decode_msg_return_means_terminator
    (fuel : nat) (msg_type : string) (b : bytes) (w : World) (p : Popen)
    (text : string) :
  _proc w = Some p ->
  fst (decode_msg fuel msg_type b w) = Return (Some text) ->
  exists code h lines s rest,
    SUPPORTED_TYPES !! msg_type = Some code /\
    struct_pack_II code (len b) = Return h /\
    stdout p ++ program p (stdin p ++ h ++ b) = lines ++ s :: rest /\
    Forall (fun l => startswith l "===___===" = false) lines /\
    startswith s "===___===" = true /\
    text = join "" lines.
Proof.
  intros Hp. rewrite decode_msg_eq.
  destruct (_init_proc_called w); [|discriminate].
  destruct (SUPPORTED_TYPES !! msg_type) as [code|] eqn:Hcode; [|discriminate].
  destruct (struct_pack_II code (len b)) as [h|e|] eqn:Hpack; try discriminate.
  rewrite Hp.
  destruct (read_loop fuel [] _) as [[r|e|] w'] eqn:Hrun; try discriminate.
  intros [= <-].
  destruct (read_loop_return_inv fuel []
              (set_proc (Some (feed (h ++ b) p)) w) (feed (h ++ b) p) r w'
              eq_refl Hrun)
    as (lines & s & rest & Hshape & Hall & Hs & -> & _).
  exists code, h, lines, s, rest.
  split; [reflexivity|]. split; [exact Hpack|]. split; [exact Hshape|].
  split; [exact Hall|]. split; [exact Hs|reflexivity].
Qed.

Lemma decode_msg_return_means_terminator_witness :
  exists code h lines s rest,
    SUPPORTED_TYPES !! "RRC_SIB7" = Some code /\
    struct_pack_II code (len sib7_payload) = Return h /\
    [] ++ fake_decoder ["rrc" +:+ LF; "sib7" +:+ LF] ([] ++ h ++ sib7_payload)
      = lines ++ s :: rest /\
    Forall (fun l => startswith l "===___===" = false) lines /\
    startswith s "===___===" = true /\
    "rrc" +:+ LF +:+ "sib7" +:+ LF = join "" lines.
Proof.
  refine (decode_msg_return_means_terminator 3 "RRC_SIB7" sib7_payload
            ready_world
            (mkPopen "/opt/ws_dissector"
               (<["LD_LIBRARY_PATH" := "/opt/wireshark/lib:/usr/lib"]>
                  sample_environ)
               [] [] (fake_decoder ["rrc" +:+ LF; "sib7" +:+ LF]))
            ("rrc" +:+ LF +:+ "sib7" +:+ LF) _ _); reflexivity.
Defined.
